(** * pyacal.mathphys: mathematical and physical constants

    A shallow embedding of [pyacal/mathphys.py].  The module is a table of
    double-precision constants computed once, at import time, followed by one
    helper, [beam_rigidity], that calls a routine of another package.

    Lines 16 to 130 are well-formed assignments and are embedded as they
    stand.  Lines 132 to 135 are not well formed: the [def] and the three
    lines of its body stand at the same indentation, so the file is refused
    by the Python compiler.  [Layout] below records the indentation of every
    logical line and checks it the way the compiler does; the body of the
    helper is embedded as [beam_rigidity], the function the [def] creates
    once its three lines are indented under it.

    Python floats are IEEE 754 binary64 numbers; they are modelled by Rocq's
    primitive floats, whose operations are the same correctly rounded
    binary64 operations.  The four Python classes are name spaces of class
    attributes and become Rocq modules; the attributes keep their names. *)

From Stdlib Require Import ZArith QArith Qabs PrimFloat FloatOps SpecFloat.
From stdpp Require Import base strings gmap.

Set Warnings "-inexact-float,-register-all".

(** ** Python arithmetic on floats *)

Module Py.

Local Open Scope float_scope.

(** An [int] operand of a mixed [int]/[float] operation is converted to the
    nearest float (every integer literal of the module is below [2^53], so
    the conversion is exact there). *)
Definition float_of_int (z : Z) : float :=
  SF2Prim (binary_normalize prec emax z 0 false).

(** [pow(x, n)] of the C library for a non-negative integral exponent, taken
    as the correctly rounded power: [pow(x, 0)] is [1.0] for every [x], a NaN
    stays a NaN, zeros and infinities keep their magnitude, and the sign is
    that of [x] when [n] is odd. *)
Definition pow_rn (x : float) (n : N) : float :=
  match n with
  | N0 => 1
  | Npos p =>
      let neg (s : bool) := andb s (N.odd n) in
      match Prim2SF x with
      | S754_nan => nan
      | S754_zero s => SF2Prim (S754_zero (neg s))
      | S754_infinity s => SF2Prim (S754_infinity (neg s))
      | S754_finite s m e =>
          SF2Prim (binary_normalize prec emax
                     (cond_Zopp (neg s) (Zpos (m ^ p))) (e * Zpos p) (neg s))
      end
  end.

(** Python's [x ** n] on a float [x] and an int [n >= 0]: [float_pow] calls
    the C library's [pow]. *)
Definition float_pow (x : float) (n : N) : float := pow_rn x n.

(** The exact rational value of a finite float ([None] for infinities and
    NaN). *)
Definition to_Q (x : float) : option Q :=
  match Prim2SF x with
  | S754_zero _ => Some 0%Q
  | S754_finite s m e => Some (inject_Z (cond_Zopp s (Zpos m)) * Qpower 2 e)%Q
  | _ => None
  end.

(** [math.isclose(a, b, rel_tol=rel_tol)], with its default [abs_tol = 0]. *)
Definition isclose (a b rel_tol : float) : bool :=
  if a =? b then true
  else if orb (is_infinity a) (is_infinity b) then false
  else
    let diff := abs (b - a) in
    orb (orb (diff <=? abs (rel_tol * b)) (diff <=? abs (rel_tol * a)))
        (diff <=? 0).

(** The exact reading of the same tolerance: the real number [x] denotes is
    within [tol] of [1], relative to [1]. *)
Definition within_of_one (tol : Q) (x : float) : Prop :=
  match to_Q x with
  | Some q => (Qabs (q - 1) <= tol * 1)%Q
  | None => False
  end.

Definition within_of_oneb (tol : Q) (x : float) : bool :=
  match to_Q x with
  | Some q => Qle_bool (Qabs (q - 1)) (tol * 1)
  | None => false
  end.

End Py.

(** ** numpy, as far as the module uses it ([import numpy as _np]) *)

Module _np.

Local Open Scope float_scope.

Definition pi : float := 3.141592653589793.

(** [numpy.pow] (the alias of [numpy.power] that numpy 2 introduced) on a
    float and an int exponent: the [double] loop, which is [pow] of the C
    library. *)
Definition pow (x : float) (n : N) : float := Py.pow_rn x n.

Definition sqrt (x : float) : float := PrimFloat.sqrt x.

End _np.

(** ** class BaseUnits *)

Module BaseUnits.

Local Open Scope float_scope.

Definition meter : float := 1.0.
Definition kilogram : float := 1.0.
Definition second : float := 1.0.
Definition ampere : float := 1.0.
Definition kelvin : float := 1.0.
Definition mole : float := 1.0.
Definition candela : float := 1.0.

End BaseUnits.

(** ** class Constants *)

Module Constants.

Import Py.
Local Open Scope float_scope.
Local Coercion float_of_int : Z >-> float.

Module _u := BaseUnits.

(* temporary auxiliary derived units *)
Definition _volt : float :=
  (_u.kilogram * float_pow _u.meter 2) / (_u.ampere * float_pow _u.second 2).
Definition _coulomb : float := _u.second * _u.ampere.
Definition _joule : float :=
  _u.kilogram * float_pow _u.meter 2 / float_pow _u.second 2.

(* exact by definition *)
Definition light_speed : float := 299792458%Z * (_u.meter / _u.second).
Definition gas_constant : float := 8.314462618 * (_joule / _u.mole / _u.kelvin).
Definition boltzmann_constant : float := 1.380649e-23 * (_joule / _u.kelvin).
Definition avogadro_constant : float := 6.02214076e23 * (1%Z / _u.mole).
Definition elementary_charge : float := 1.602176634e-19 * _coulomb.
Definition reduced_planck_constant : float :=
  1.054571817e-34 * (_joule * _u.second).

(* measured *)
Definition electron_mass : float := 9.1093837015e-31 * _u.kilogram.
Definition vacuum_permeability : float :=
  1.25663706212e-6 * (_volt * _u.second / _u.ampere / _u.meter).

(* derived *)
Definition electron_rest_energy : float :=
  electron_mass * _np.pow light_speed 2.
Definition vacuum_permitticity : float :=
  1.0 / (vacuum_permeability * _np.pow light_speed 2).
Definition vacuum_impedance : float := vacuum_permeability * light_speed.
Definition electron_radius : float :=
  _np.pow elementary_charge 2 /
  (4%Z * _np.pi * vacuum_permitticity * electron_rest_energy).

Definition _joule_2_eV : float := _joule / elementary_charge.

Definition rad_cgamma : float :=
  4%Z * _np.pi * electron_radius /
  _np.pow (electron_rest_energy / elementary_charge / 1.0e9) 3 / 3%Z.
Definition Cq : float :=
  (55.0 / (32%Z * _np.sqrt 3.0)) * reduced_planck_constant *
  light_speed / electron_rest_energy.
Definition Ca : float :=
  electron_radius * light_speed /
  (3%Z * _np.pow (electron_rest_energy * _joule_2_eV / 1.0e9) 3).

End Constants.

(** ** class DerivedUnits *)

Module DerivedUnits.

Import Py.
Local Open Scope float_scope.
Local Coercion float_of_int : Z >-> float.

Module _u := BaseUnits.
Module _c := Constants.

(** The right-hand side of [newton], as a function of the three base-unit
    values it reads. *)
Definition newton_of (kilogram meter second : float) : float :=
  kilogram * meter / second.

Definition newton : float := newton_of _u.kilogram _u.meter _u.second.
Definition coulomb : float := _u.second * _u.ampere.
Definition joule : float := newton * _u.meter.
Definition watt : float := joule / _u.second.
Definition volt : float := watt / _u.ampere.
Definition weber : float := volt * _u.second.
Definition tesla : float := weber / float_pow _u.meter 2.
Definition pascal : float :=
  _u.kilogram / (_u.meter * float_pow _u.second 2).

Definition radian : float := _u.meter / _u.meter.
Definition mA : float := 1e-3.
Definition uA : float := 1e-6.
Definition km : float := 1e3.
Definition cm : float := 1e-2.
Definition mm : float := 1e-3.
Definition um : float := 1e-6.
Definition nm : float := 1e-9.
Definition rad : float := 1e0.
Definition mrad : float := 1e-3.
Definition urad : float := 1e-6.
Definition nrad : float := 1e-9.
(* minute, hour and day are ints; year is a float *)
Definition minute : Z := 60.
Definition hour : Z := 60 * 60.
Definition day : Z := 24 * 60 * 60.
Definition year : float := 365.25 * 24%Z * 60%Z * 60%Z.

Definition electron_volt : float := _c.elementary_charge * volt.
Definition eV : float := electron_volt.
Definition MeV : float := electron_volt * 1e6.
Definition GeV : float := electron_volt * 1e9.

End DerivedUnits.

(** ** class Conversions *)

Module Conversions.

Local Open Scope float_scope.

Module _u := BaseUnits.
Module _du := DerivedUnits.

Definition radian_2_degree : float := 180.0 / _np.pi.
Definition degree_2_radian : float := _np.pi / 180.0.

Definition rad_2_mrad : float := _du.rad / _du.mrad.
Definition meter_2_mm : float := _u.meter / _du.mm.
Definition joule_2_eV : float := _du.joule / _du.electron_volt.
Definition pascal_2_bar : float := _du.pascal * 1.0e-5.
Definition eV_2_GeV : float := _du.eV / _du.GeV.
Definition joule_2_GeV : float := joule_2_eV * eV_2_GeV.
Definition ev_2_joule : float := 1.0 / joule_2_eV.
Definition GeV_2_eV : float := 1.0 / eV_2_GeV.
Definition mrad_2_rad : float := 1.0 / rad_2_mrad.
Definition mm_2_meter : float := 1.0 / meter_2_mm.

(** The reciprocal pairs of the table. *)
Definition reciprocal_pairs : list (float * float) :=
  [ (radian_2_degree, degree_2_radian);
    (meter_2_mm, mm_2_meter);
    (eV_2_GeV, GeV_2_eV);
    (rad_2_mrad, mrad_2_rad);
    (joule_2_eV, ev_2_joule) ].

End Conversions.

(** ** The Python objects and name spaces [beam_rigidity] touches *)

Module Runtime.

Inductive pyobj :=
| PyNone
| PyInt (z : Z)
| PyFloat (x : float)
| PyStr (s : string)
| PyTuple (items : list pyobj)
| PyClass (name : string)
| PyModule (name : string)
| PyFunction (name : string)
| PyBuiltin (name : string)
| PyOpaque.

Inductive exn :=
| IndentationError (lineno : nat)
| NameError (name : string)
| AttributeError (attr : string)
| TypeError
| ValueError
| Raised (what : string).

(** The outcome of evaluating an expression: an exception or a value. *)
Inductive result (A : Type) :=
| Raise (e : exn)
| Return (a : A).
Arguments Raise {A} e.
Arguments Return {A} a.

(** Sequencing: an exception ends the evaluation and propagates. *)
#[export] Instance result_ret : MRet result := @Return.
#[export] Instance result_bind : MBind result := fun A B k m =>
  match m with
  | Raise e => Raise e
  | Return a => k a
  end.

(** Attribute access, calls with keyword arguments and iteration belong to
    the types of the objects they are applied to: the model takes them as
    they come.  [iter_items o] is what unpacking [o] obtains: the items [o]
    yields (tuples, lists, arrays, generators, strings, ... all yield some),
    or the exception raised when [o] is not iterable or fails to iterate. *)
Record runtime := {
  getattr : pyobj -> string -> result pyobj;
  call : pyobj -> list (string * pyobj) -> result pyobj;
  iter_items : pyobj -> result (list pyobj)
}.

(** A name that is not local to a function is looked up in the module's
    globals, then in the builtins; a name in neither raises [NameError]. *)
Definition load_global (globals builtins : gmap string pyobj)
    (name : string) : result pyobj :=
  match globals !! name with
  | Some o => Return o
  | None =>
      match builtins !! name with
      | Some o => Return o
      | None => Raise (NameError name)
      end
  end.

(** The names of the [builtins] module (CPython 3.12). *)
Definition builtin_names : list string :=
  [ "ArithmeticError"; "AssertionError"; "AttributeError"; "BaseException";
    "BaseExceptionGroup"; "BlockingIOError"; "BrokenPipeError"; "BufferError";
    "BytesWarning"; "ChildProcessError"; "ConnectionAbortedError";
    "ConnectionError"; "ConnectionRefusedError"; "ConnectionResetError";
    "DeprecationWarning"; "EOFError"; "Ellipsis"; "EncodingWarning";
    "EnvironmentError"; "Exception"; "ExceptionGroup"; "False";
    "FileExistsError"; "FileNotFoundError"; "FloatingPointError";
    "FutureWarning"; "GeneratorExit"; "IOError"; "ImportError";
    "ImportWarning"; "IndentationError"; "IndexError"; "InterruptedError";
    "IsADirectoryError"; "KeyError"; "KeyboardInterrupt"; "LookupError";
    "MemoryError"; "ModuleNotFoundError"; "NameError"; "None";
    "NotADirectoryError"; "NotImplemented"; "NotImplementedError"; "OSError";
    "OverflowError"; "PendingDeprecationWarning"; "PermissionError";
    "ProcessLookupError"; "RecursionError"; "ReferenceError";
    "ResourceWarning"; "RuntimeError"; "RuntimeWarning";
    "StopAsyncIteration"; "StopIteration"; "SyntaxError"; "SyntaxWarning";
    "SystemError"; "SystemExit"; "TabError"; "TimeoutError"; "True";
    "TypeError"; "UnboundLocalError"; "UnicodeDecodeError";
    "UnicodeEncodeError"; "UnicodeError"; "UnicodeTranslateError";
    "UnicodeWarning"; "UserWarning"; "ValueError"; "Warning";
    "ZeroDivisionError"; "__build_class__"; "__debug__"; "__doc__";
    "__import__"; "__loader__"; "__name__"; "__package__"; "__spec__";
    "abs"; "aiter"; "all"; "anext"; "any"; "ascii"; "bin"; "bool";
    "breakpoint"; "bytearray"; "bytes"; "callable"; "chr"; "classmethod";
    "compile"; "complex"; "copyright"; "credits"; "delattr"; "dict"; "dir";
    "divmod"; "enumerate"; "eval"; "exec"; "exit"; "filter"; "float";
    "format"; "frozenset"; "getattr"; "globals"; "hasattr"; "hash"; "help";
    "hex"; "id"; "input"; "int"; "isinstance"; "issubclass"; "iter"; "len";
    "license"; "list"; "locals"; "map"; "max"; "memoryview"; "min"; "next";
    "object"; "oct"; "open"; "ord"; "pow"; "print"; "property"; "quit";
    "range"; "repr"; "reversed"; "round"; "set"; "setattr"; "slice";
    "sorted"; "staticmethod"; "str"; "sum"; "super"; "tuple"; "type";
    "vars"; "zip" ].

Definition builtins : gmap string pyobj :=
  list_to_map ((fun n => (n, PyBuiltin n)) <$> builtin_names).

End Runtime.

(** ** The module's name space and [beam_rigidity] *)

Import Runtime.

(** The globals of a freshly created module, before its body runs. *)
Definition module_init : gmap string pyobj :=
  list_to_map
    [ ("__name__", PyStr "pyacal.mathphys");
      ("__doc__", PyStr "Mathematical and Physical constants.");
      ("__package__", PyStr "pyacal");
      ("__loader__", PyNone);
      ("__spec__", PyNone);
      ("__file__", PyStr "pyacal/mathphys.py");
      ("__cached__", PyNone);
      ("__builtins__", PyModule "builtins") ].

(** The globals a completed run of the module body leaves when the [def]
    stands at module level with its body indented under it (the layout
    [Layout.repaired_at_module_level] below; the file as it stands never runs
    its body): the [import], the four [class] statements and the [def] each
    bind one name, in this order. *)
Definition module_globals : gmap string pyobj :=
  <["beam_rigidity" := PyFunction "beam_rigidity"]>
    (<["Conversions" := PyClass "Conversions"]>
      (<["DerivedUnits" := PyClass "DerivedUnits"]>
        (<["Constants" := PyClass "Constants"]>
          (<["BaseUnits" := PyClass "BaseUnits"]>
            (<["_np" := PyModule "numpy"]> module_init))))).

(** The function [def beam_rigidity(energy)] creates once lines 133 to 135
    are indented under it (as the file stands they are not, and no function
    is created: see [Layout]).  [energy] is the function's only local when
    the call is evaluated, so [_beam] is a global load; the call's value is
    unpacked into exactly five targets and three of them are returned.  The
    name space the body sees is the module's, whether the [def] stands at
    module level or in the body of [class Conversions]: a class body is not
    an enclosing scope of the functions defined in it. *)
Definition beam_rigidity (rt : runtime) (globals builtins : gmap string pyobj)
    (energy : pyobj) : result pyobj :=
  _beam ← load_global globals builtins "_beam";
  f ← getattr rt _beam "beam_rigidity";
  r ← call rt f [("energy", energy)];
  items ← iter_items rt r;
  match items with
  | [brho; _; beta; gamma; _] => Return (PyTuple [brho; beta; gamma])
  | _ => Raise ValueError
  end.

(** A stand-in for an installed accelerator-physics package: a module
    [beam_optics] whose [beam_rigidity] answers every call with the same
    object; of the objects of the stand-in only tuples are iterable. *)
Definition stub_runtime (answer : pyobj) : runtime :=
  {| getattr o attr :=
       match o with
       | PyModule "beam_optics" =>
           if String.eqb attr "beam_rigidity"
           then Return (PyFunction "beam_optics.beam_rigidity")
           else Raise (AttributeError attr)
       | _ => Raise (AttributeError attr)
       end;
     call f kwargs :=
       match f, kwargs with
       | PyFunction "beam_optics.beam_rigidity", [("energy", _)] => Return answer
       | _, _ => Raise TypeError
       end;
     iter_items o :=
       match o with
       | PyTuple items => Return items
       | _ => Raise TypeError
       end |}.

(** ** The layout of the file *)

Module Layout.

(** What the block structure and the module's name space need of a logical
    line: whether it opens a block, and the names it binds. *)
Inductive stmt :=
| SExpr
| SImport (module alias : string)
| SClass (name : string)
| SDef (name : string)
| SAssign (targets : list string)
| SReturn.

(** A logical line: the number of its first physical line, the width of its
    leading white space, and its statement.  Blank lines, comment lines and
    the continuation lines of an expression are not logical lines. *)
Record line := Line {
  lineno : nat;
  indent : nat;
  statement : stmt
}.

(** A [class] or [def] header ends with a colon and is followed by its
    block on the next lines. *)
Definition opens_block (l : line) : bool :=
  match statement l with
  | SClass _ | SDef _ => true
  | _ => false
  end.

(** Lines 1 to 130 of the file. *)
Definition lines_1_130 : list line :=
  [ Line 1 0 SExpr;
    Line 3 0 (SImport "numpy" "_np");
    Line 11 0 (SClass "BaseUnits");
    Line 12 4 SExpr;
    Line 16 4 (SAssign ["meter"]);
    Line 17 4 (SAssign ["kilogram"]);
    Line 18 4 (SAssign ["second"]);
    Line 19 4 (SAssign ["ampere"]);
    Line 20 4 (SAssign ["kelvin"]);
    Line 21 4 (SAssign ["mole"]);
    Line 22 4 (SAssign ["candela"]);
    Line 25 0 (SClass "Constants");
    Line 26 4 SExpr;
    Line 27 4 (SAssign ["_u"]);
    Line 29 4 (SAssign ["_volt"]);
    Line 30 4 (SAssign ["_coulomb"]);
    Line 31 4 (SAssign ["_joule"]);
    Line 38 4 (SAssign ["light_speed"]);
    Line 39 4 (SAssign ["gas_constant"]);
    Line 40 4 (SAssign ["boltzmann_constant"]);
    Line 41 4 (SAssign ["avogadro_constant"]);
    Line 42 4 (SAssign ["elementary_charge"]);
    Line 43 4 (SAssign ["reduced_planck_constant"]);
    Line 48 4 (SAssign ["electron_mass"]);
    Line 51 4 (SAssign ["vacuum_permeability"]);
    Line 57 4 (SAssign ["electron_rest_energy"]);
    Line 60 4 (SAssign ["vacuum_permitticity"]);
    Line 63 4 (SAssign ["vacuum_impedance"]);
    Line 66 4 (SAssign ["electron_radius"]);
    Line 69 4 (SAssign ["_joule_2_eV"]);
    Line 72 4 (SAssign ["rad_cgamma"]);
    Line 76 4 (SAssign ["Cq"]);
    Line 80 4 (SAssign ["Ca"]);
    Line 84 0 (SClass "DerivedUnits");
    Line 85 4 SExpr;
    Line 86 4 (SAssign ["_u"]);
    Line 87 4 (SAssign ["_c"]);
    Line 88 4 (SAssign ["newton"]);
    Line 89 4 (SAssign ["coulomb"]);
    Line 90 4 (SAssign ["joule"]);
    Line 91 4 (SAssign ["watt"]);
    Line 92 4 (SAssign ["volt"]);
    Line 93 4 (SAssign ["weber"]);
    Line 94 4 (SAssign ["tesla"]);
    Line 95 4 (SAssign ["pascal"]);
    Line 97 4 (SAssign ["radian"]);
    Line 98 4 (SAssign ["mA"; "uA"]);
    Line 99 4 (SAssign ["km"; "cm"; "mm"; "um"; "nm"]);
    Line 100 4 (SAssign ["rad"; "mrad"; "urad"; "nrad"]);
    Line 101 4 (SAssign ["minute"; "hour"; "day"; "year"]);
    Line 103 4 (SAssign ["electron_volt"]);
    Line 104 4 (SAssign ["eV"; "MeV"; "GeV"]);
    Line 107 0 (SClass "Conversions");
    Line 108 4 SExpr;
    Line 115 4 (SAssign ["_u"]);
    Line 116 4 (SAssign ["_du"]);
    Line 118 4 (SAssign ["radian_2_degree"]);
    Line 119 4 (SAssign ["degree_2_radian"]);
    Line 121 4 (SAssign ["rad_2_mrad"]);
    Line 122 4 (SAssign ["meter_2_mm"]);
    Line 123 4 (SAssign ["joule_2_eV"]);
    Line 124 4 (SAssign ["pascal_2_bar"]);
    Line 125 4 (SAssign ["eV_2_GeV"]);
    Line 126 4 (SAssign ["joule_2_GeV"]);
    Line 127 4 (SAssign ["ev_2_joule"]);
    Line 128 4 (SAssign ["GeV_2_eV"]);
    Line 129 4 (SAssign ["mrad_2_rad"]);
    Line 130 4 (SAssign ["mm_2_meter"]) ].

(** Lines 132 to 135, with the header at the column [header] and the three
    lines of the body at the column [body]. *)
Definition lines_132_135 (header body : nat) : list line :=
  [ Line 132 header (SDef "beam_rigidity");
    Line 133 body SExpr;
    Line 134 body (SAssign ["brho"; "_"; "beta"; "gamma"; "_"]);
    Line 135 body SReturn ].


(** The two least changes of white space that give the [def] a block: the
    header moved to column 0, which makes the function a global of the
    module, or the body moved to column 8, which makes it an attribute of
    [class Conversions]. *)
Definition repaired_at_module_level : list line :=
  lines_1_130 ++ lines_132_135 0 4.
Definition repaired_in_class : list line :=
  lines_1_130 ++ lines_132_135 4 8.

(** Leaving blocks: the stack of open indentations is popped down to the
    column of the line, which has to be one of them. *)
Fixpoint dedent (column : nat) (stack : list nat) : option (list nat) :=
  match stack with
  | [] => None
  | top :: rest =>
      if column =? top then Some stack
      else if column <? top then dedent column rest
      else None
  end.

(** The compiler's check of the block structure.  [stack] holds the open
    indentations, innermost first; [after_header] tells that the previous
    logical line was a header, [last] is its line number.  The line after a
    header has to be indented further than the header; any other line has to
    stand at an open indentation. *)
Fixpoint check_blocks (stack : list nat) (after_header : bool) (last : nat)
    (ls : list line) : result unit :=
  match ls with
  | [] => if after_header then Raise (IndentationError (S last)) else Return tt
  | l :: rest =>
      let top := hd 0%nat stack in
      if after_header then
        if top <? indent l
        then check_blocks (indent l :: stack) (opens_block l) (lineno l) rest
        else Raise (IndentationError (lineno l))
      else if top <? indent l then Raise (IndentationError (lineno l))
      else
        match dedent (indent l) stack with
        | Some stack' => check_blocks stack' (opens_block l) (lineno l) rest
        | None => Raise (IndentationError (lineno l))
        end
  end.






End Layout.

(** The float attributes of [Constants], in the order of the class body. *)
Definition constants_table : list float :=
  [ Constants._volt; Constants._coulomb; Constants._joule;
    Constants.light_speed; Constants.gas_constant;
    Constants.boltzmann_constant; Constants.avogadro_constant;
    Constants.elementary_charge; Constants.reduced_planck_constant;
    Constants.electron_mass; Constants.vacuum_permeability;
    Constants.electron_rest_energy; Constants.vacuum_permitticity;
    Constants.vacuum_impedance; Constants.electron_radius;
    Constants._joule_2_eV; Constants.rad_cgamma; Constants.Cq; Constants.Ca ].

(** The compound SI units of [DerivedUnits] (its first nine attributes). *)
Definition si_units_table : list float :=
  [ DerivedUnits.newton; DerivedUnits.coulomb; DerivedUnits.joule;
    DerivedUnits.watt; DerivedUnits.volt; DerivedUnits.weber;
    DerivedUnits.tesla; DerivedUnits.pascal; DerivedUnits.radian ].

(** The other float attributes of [DerivedUnits]. *)
Definition scales_table : list float :=
  [ DerivedUnits.mA; DerivedUnits.uA; DerivedUnits.km; DerivedUnits.cm;
    DerivedUnits.mm; DerivedUnits.um; DerivedUnits.nm; DerivedUnits.rad;
    DerivedUnits.mrad; DerivedUnits.urad; DerivedUnits.nrad;
    DerivedUnits.year; DerivedUnits.electron_volt; DerivedUnits.eV;
    DerivedUnits.MeV; DerivedUnits.GeV ].

(** The attributes of [Conversions]. *)
Definition conversions_table : list float :=
  [ Conversions.radian_2_degree; Conversions.degree_2_radian;
    Conversions.rad_2_mrad; Conversions.meter_2_mm; Conversions.joule_2_eV;
    Conversions.pascal_2_bar; Conversions.eV_2_GeV; Conversions.joule_2_GeV;
    Conversions.ev_2_joule; Conversions.GeV_2_eV; Conversions.mrad_2_rad;
    Conversions.mm_2_meter ].

(** A positive double that is neither zero, subnormal, infinite nor NaN. *)
Definition positive_normal (x : float) : bool :=
  match classify x with
  | FloatClass.PNormal => true
  | _ => false
  end.

(** * Properties *)

Open Scope float_scope.

(** ** Helper lemmas *)

(** Closed goals on floats, ints and name spaces are settled by evaluation. *)
Ltac by_evaluation := vm_compute; reflexivity.

Lemma within_of_oneb_true (tol : Q) (x : float) :
  Py.within_of_oneb tol x = true -> Py.within_of_one tol x.
Proof.
  unfold Py.within_of_oneb, Py.within_of_one.
  destruct (Py.to_Q x) as [q|]; [|discriminate].
  apply Qle_bool_imp_le.
Qed.

(** Two floats that the comparison [=?] tells apart are different, when
    one of them is a number (a NaN compares unequal to itself). *)
Lemma float_neq (x y : float) :
  (x =? x) = true -> (x =? y) = false -> x <> y.
Proof.
  intros Hx Hxy Heq. subst y. rewrite Hx in Hxy. discriminate.
Qed.

(** The name [_beam] is bound neither by the module nor by the builtins. *)
Lemma module_globals_no_beam : module_globals !! "_beam" = None.
Proof. by_evaluation. Qed.

Lemma builtins_no_beam : builtins !! "_beam" = None.
Proof. by_evaluation. Qed.

Lemma load_global_beam :
  load_global module_globals builtins "_beam" = Raise (NameError "_beam").
Proof.
  unfold load_global.
  rewrite module_globals_no_beam, builtins_no_beam. reflexivity.
Qed.

(** The names the module body binds. *)
Lemma module_globals_dom :
  dom module_globals =
  dom module_init ∪
  {[ "_np"; "BaseUnits"; "Constants"; "DerivedUnits"; "Conversions";
     "beam_rigidity" ]}.
Proof. unfold module_globals. rewrite !dom_insert_L. set_solver. Qed.

(** The square the C library returns for the speed of light is the one the
    multiplication returns: the exact square is a quarter of an ulp away
    from a float. *)
Lemma light_speed_squared :
  Py.pow_rn Constants.light_speed 2 = Constants.light_speed * Constants.light_speed
  /\ Py.pow_rn Constants.light_speed 2 = 89875517873681760.
Proof. split; vm_compute; reflexivity. Qed.

(** What the body is written to do, in a name space that binds [_beam]
    (no layout of the file gives one: the module imports numpy only): the
    function forwards [energy] by keyword and returns the first, third and
    fourth of the five items of the answer. *)
Lemma beam_rigidity_forwards (rt : runtime) (globals : gmap string pyobj)
    (energy m f r brho velocity beta gamma e : pyobj) :
  globals !! "_beam" = Some m ->
  getattr rt m "beam_rigidity" = Return f ->
  call rt f [("energy", energy)] = Return r ->
  iter_items rt r = Return [brho; velocity; beta; gamma; e] ->
  beam_rigidity rt globals builtins energy = Return (PyTuple [brho; beta; gamma]).
Proof.
  intros Hg Ha Hc Hi. unfold beam_rigidity, load_global.
  rewrite Hg. cbn. rewrite Ha. cbn. rewrite Hc. cbn. rewrite Hi. reflexivity.
Qed.

Lemma beam_rigidity_forwards_example :
  let answer := PyTuple [PyFloat 10; PyFloat 299792453; PyFloat 0.5; PyFloat 5871; PyFloat 3] in
  beam_rigidity (stub_runtime answer)
    (<["_beam" := PyModule "beam_optics"]> module_globals) builtins (PyFloat 3)
  = Return (PyTuple [PyFloat 10; PyFloat 0.5; PyFloat 5871]).
Proof.
  intros answer.
  apply (beam_rigidity_forwards (stub_runtime answer) _ (PyFloat 3)
           (PyModule "beam_optics") (PyFunction "beam_optics.beam_rigidity")
           answer _ (PyFloat 299792453) _ _ (PyFloat 3)).
  - apply lookup_insert_eq.
  - reflexivity.
  - reflexivity.
  - reflexivity.
Defined.

(** X17: the expression of [newton] divides by the time unit once: at
    another time scale (two for the second, one for the others) it is not
    [kg m / s^2]. *)
Lemma newton_of_scale :
  DerivedUnits.newton_of 1 1 2 <> 1 * 1 / Py.float_pow 2 2.
Proof. apply float_neq; by_evaluation. Qed.

(** Whatever the installed packages are, the helper raises [NameError] in
    a name space that does not bind [_beam]. *)
Lemma beam_rigidity_unbound (rt : runtime) (globals bltns : gmap string pyobj)
    (energy : pyobj) :
  globals !! "_beam" = None -> bltns !! "_beam" = None ->
  beam_rigidity rt globals bltns energy = Raise (NameError "_beam").
Proof.
  intros Hg Hb. unfold beam_rigidity, load_global.
  rewrite Hg, Hb. reflexivity.
Qed.

Lemma beam_rigidity_unbound_example :
  beam_rigidity (stub_runtime PyNone) module_init builtins PyNone
  = Raise (NameError "_beam").
Proof.
  apply (beam_rigidity_unbound (stub_runtime PyNone) module_init builtins PyNone);
    by_evaluation.
Defined.

(** ** The layout of the file *)


(** Lines 1 to 130 alone pass the check, and so do both repairs. *)
Lemma repairs_are_accepted :
  Layout.check_blocks [0%nat] false 0 Layout.lines_1_130 = Return tt
  /\ Layout.check_blocks [0%nat] false 0 Layout.repaired_at_module_level
     = Return tt
  /\ Layout.check_blocks [0%nat] false 0 Layout.repaired_in_class = Return tt.
Proof. repeat split; by_evaluation. Qed.




(** ** The base units *)

(** C6: each of the seven base-unit values of [BaseUnits] is exactly [1.0]. *)
Theorem base_units_are_one :
  BaseUnits.meter = 1.0 /\ BaseUnits.kilogram = 1.0 /\ BaseUnits.second = 1.0 /\
  BaseUnits.ampere = 1.0 /\ BaseUnits.kelvin = 1.0 /\ BaseUnits.mole = 1.0 /\
  BaseUnits.candela = 1.0.
Proof. repeat split. Qed.

(** ** The constants *)

(** C4: [electron_rest_energy] is bit for bit [electron_mass * light_speed**2];
    the same float is obtained when the square is taken by multiplication,
    and it prints as [8.187105776823886e-14]. *)
Theorem electron_rest_energy_formula :
  Constants.electron_rest_energy
  = Constants.electron_mass * Py.float_pow Constants.light_speed 2
  /\ Constants.electron_rest_energy
     = Constants.electron_mass * (Constants.light_speed * Constants.light_speed)
  /\ Constants.electron_rest_energy = 8.187105776823886e-14.
Proof. repeat split; by_evaluation. Qed.

(** C3: [vacuum_permitticity] is [1.0 / (vacuum_permeability * light_speed**2)],
    and the float [vacuum_permitticity * vacuum_permeability * light_speed**2]
    is [1] within the relative tolerance [1e-12], both as [math.isclose]
    decides it and for the exact value of the float. *)
Theorem vacuum_permitticity_product :
  let product :=
    Constants.vacuum_permitticity * Constants.vacuum_permeability
    * Py.float_pow Constants.light_speed 2 in
  Constants.vacuum_permitticity
  = 1.0 / (Constants.vacuum_permeability * Py.float_pow Constants.light_speed 2)
  /\ Py.isclose product 1.0 1e-12 = true
  /\ Py.within_of_one (1 # 10 ^ 12) product.
Proof.
  cbv zeta. split; [|split].
  - reflexivity.
  - by_evaluation.
  - apply within_of_oneb_true. by_evaluation.
Qed.

(** X16: the product [vacuum_permitticity * vacuum_permeability *
    light_speed**2] is not [1.0] itself: it is the float just below. *)
Lemma vacuum_permitticity_product_value :
  Constants.vacuum_permitticity * Constants.vacuum_permeability
  * Py.float_pow Constants.light_speed 2 = next_down 1.0.
Proof. by_evaluation. Qed.

(** C10: the private factor [Constants._joule_2_eV] and the public factor
    [Conversions.joule_2_eV] are the same float, [1.0 / elementary_charge]. *)
Theorem joule_2_eV_coincide :
  Constants._joule_2_eV = Conversions.joule_2_eV
  /\ Constants._joule_2_eV = 1.0 / Constants.elementary_charge
  /\ Conversions.joule_2_eV = 1.0 / Constants.elementary_charge.
Proof. repeat split; by_evaluation. Qed.

(** ** The derived units *)

(** The value of [newton] equals [kilogram * meter / second**2] of the
    base-unit values: all three are [1.0], and so is [newton]. *)
Lemma newton_value :
  DerivedUnits.newton
  = BaseUnits.kilogram * BaseUnits.meter / Py.float_pow BaseUnits.second 2
  /\ (DerivedUnits.newton
      =? BaseUnits.kilogram * BaseUnits.meter / Py.float_pow BaseUnits.second 2)
     = true
  /\ DerivedUnits.newton = 1.0.
Proof. repeat split; by_evaluation. Qed.


(** C7: [electron_volt] is [elementary_charge * volt] and [GeV] is
    [electron_volt * 1e9]. *)
Theorem electron_volt_GeV :
  DerivedUnits.electron_volt = Constants.elementary_charge * DerivedUnits.volt
  /\ DerivedUnits.GeV = DerivedUnits.electron_volt * 1e9
  /\ DerivedUnits.electron_volt = 1.602176634e-19
  /\ DerivedUnits.GeV = 1.6021766339999998e-10.
Proof. repeat split; by_evaluation. Qed.

(** C8: [light_speed] is [299792458.0]; [radian_2_degree] is [180/pi], the
    float [57.29577951308232]; [minute], [hour] and [day] are [60], [3600]
    and [86400]; [year] is [365.25] days, the float [31557600.0]. *)
Theorem concrete_values :
  Constants.light_speed = 299792458.0
  /\ Conversions.radian_2_degree = 180.0 / _np.pi
  /\ Conversions.radian_2_degree = 57.29577951308232
  /\ DerivedUnits.minute = 60%Z
  /\ DerivedUnits.hour = 3600%Z
  /\ DerivedUnits.day = 86400%Z
  /\ DerivedUnits.year = 365.25 * Py.float_of_int DerivedUnits.day
  /\ DerivedUnits.year = 31557600.0.
Proof. repeat split; by_evaluation. Qed.

(** ** The conversion factors *)

(** C2: for each of the five reciprocal pairs of [Conversions], the product
    of the two factors is [1] within the relative tolerance [1e-12], both as
    [math.isclose] decides it and for the exact value of the float. *)
Theorem reciprocal_pairs_product :
  Conversions.reciprocal_pairs =
    [ (Conversions.radian_2_degree, Conversions.degree_2_radian);
      (Conversions.meter_2_mm, Conversions.mm_2_meter);
      (Conversions.eV_2_GeV, Conversions.GeV_2_eV);
      (Conversions.rad_2_mrad, Conversions.mrad_2_rad);
      (Conversions.joule_2_eV, Conversions.ev_2_joule) ]
  /\ Forall (fun p : float * float =>
               Py.isclose (fst p * snd p) 1.0 1e-12 = true
               /\ Py.within_of_one (1 # 10 ^ 12) (fst p * snd p))
            Conversions.reciprocal_pairs.
Proof.
  split; [reflexivity|].
  unfold Conversions.reciprocal_pairs.
  repeat (apply Forall_cons; split;
          [split; [by_evaluation
                  |apply within_of_oneb_true; by_evaluation]|]).
  apply Forall_nil. exact I.
Qed.

(** X15: four of the five products are [1.0] itself; the GeV pair gives the
    float just below. *)
Lemma reciprocal_pairs_product_values :
  (fun p : float * float => fst p * snd p) <$> Conversions.reciprocal_pairs
  = [1.0; 1.0; next_down 1.0; 1.0; 1.0].
Proof. by_evaluation. Qed.

(** ** The beam rigidity helper *)



(** C1, at the energy 3.0 GeV, for the function of the layout repaired at
    module level (the file as it stands creates no function at all): the
    call does not forward anything; it raises [NameError] and returns no
    triple, whatever routine the installed packages offer. *)
Theorem beam_rigidity_3GeV_raises (rt : runtime) :
  beam_rigidity rt module_globals builtins (PyFloat 3.0) = Raise (NameError "_beam")
  /\ forall brho beta gamma,
       beam_rigidity rt module_globals builtins (PyFloat 3.0)
       <> Return (PyTuple [brho; beta; gamma]).
Proof.
  assert (Hr := beam_rigidity_unbound rt module_globals builtins (PyFloat 3.0)
                  module_globals_no_beam builtins_no_beam).
  split; [exact Hr|].
  intros brho beta gamma Hv. rewrite Hr in Hv. discriminate.
Qed.

(** * Further properties of the code *)

(** ** The tables *)

(** X7: the nine compound SI units of [DerivedUnits] all have the value
    [1.0]: a quantity multiplied by one of them keeps its SI value. *)
Theorem si_units_are_one : Forall (fun u => u = 1.0) si_units_table.
Proof. unfold si_units_table. repeat constructor. Qed.

(** X8: the auxiliary units [Constants] computes for itself are the units of
    the same name that [DerivedUnits] computes by another chain of
    expressions. *)
Theorem auxiliary_units_agree :
  Constants._volt = DerivedUnits.volt
  /\ Constants._coulomb = DerivedUnits.coulomb
  /\ Constants._joule = DerivedUnits.joule.
Proof. repeat split; by_evaluation. Qed.

(** A boolean test that holds along a list holds of each element. *)
Lemma Forall_of_forallb {A : Type} (f : A -> bool) (l : list A) :
  forallb f l = true -> Forall (fun x => f x = true) l.
Proof.
  induction l as [|x l IH]; cbn; intros H; constructor.
  - apply andb_prop in H. apply H.
  - apply IH. apply andb_prop in H. apply H.
Qed.

(** X9: no float of the four tables is zero, subnormal, infinite, NaN or
    negative: no expression of the class bodies overflows or underflows. *)
Theorem tables_positive_normal :
  Forall (fun x => positive_normal x = true)
    (constants_table ++ si_units_table ++ scales_table ++ conversions_table).
Proof. apply Forall_of_forallb. by_evaluation. Qed.

(** ** How the conversion factors compose *)

(** X10: [joule_2_GeV] times the unit [GeV] is the float [1.0]; the factor
    is close to, but not the same float as, the quotient [1.0 / GeV]. *)
Theorem joule_2_GeV_composed :
  Conversions.joule_2_GeV * DerivedUnits.GeV = 1.0
  /\ Py.isclose Conversions.joule_2_GeV (1.0 / DerivedUnits.GeV) 1e-12 = true
  /\ Conversions.joule_2_GeV <> 1.0 / DerivedUnits.GeV.
Proof.
  split; [by_evaluation|split; [by_evaluation|]].
  apply float_neq; by_evaluation.
Qed.

(** X11: [eV_2_GeV] is the float of the literal [1e-9], but its reciprocal
    [GeV_2_eV] is not [1e9]: it is the float just below; and a thousand
    [MeV] is the same float as one [GeV]. *)
Theorem GeV_factors :
  Conversions.eV_2_GeV = 1e-9
  /\ Conversions.GeV_2_eV = next_down 1e9
  /\ Conversions.GeV_2_eV <> 1e9
  /\ DerivedUnits.MeV * 1e3 = DerivedUnits.GeV.
Proof.
  split; [by_evaluation|split; [by_evaluation|split; [|by_evaluation]]].
  apply float_neq; by_evaluation.
Qed.

(** X12: the gas constant of the table is a ten-digit literal: it agrees
    with [boltzmann_constant * avogadro_constant] within the relative
    tolerance [1e-10], and not within [1e-11]. *)
Theorem gas_constant_product :
  let product := Constants.boltzmann_constant * Constants.avogadro_constant in
  Py.isclose Constants.gas_constant product 1e-10 = true
  /\ Py.isclose Constants.gas_constant product 1e-11 = false.
Proof. cbv zeta. split; by_evaluation. Qed.

(** ** How the derived constants relate *)

(** X13: [vacuum_impedance * vacuum_permitticity * light_speed] is the float
    [1.0] (the impedance of the table is [1 / (permittivity * c)]). *)
Theorem vacuum_impedance_product :
  Constants.vacuum_impedance * Constants.vacuum_permitticity
  * Constants.light_speed = 1.0.
Proof. by_evaluation. Qed.

(** X14: the two synchrotron-radiation constants are computed from the rest
    energy in GeV by two different expressions, which give the same float,
    and they satisfy [Ca * 4 pi = rad_cgamma * light_speed] within the
    relative tolerance [1e-12]. *)
Theorem Ca_rad_cgamma :
  Constants.electron_rest_energy / Constants.elementary_charge / 1.0e9
  = Constants.electron_rest_energy * Constants._joule_2_eV / 1.0e9
  /\ Py.isclose (Constants.Ca * (Py.float_of_int 4 * _np.pi))
       (Constants.rad_cgamma * Constants.light_speed) 1e-12 = true.
Proof. split; by_evaluation. Qed.
